(** * The similarity adapter of the sentence-transformers tutorials

    A shallow embedding of [SimilarityModel] (the [PythonModel] subclass
    of semantic-similarity-sentence-transformers.ipynb) and of the
    order in which the three tutorial notebooks call the tracking client.

    The adapter owns no algorithm: it validates the shape of its input,
    picks two fields and hands them to [SentenceTransformer.encode] and
    [util.cos_sim].  Those library functions are not part of the
    repository, so a method is embedded as a tree of delegate calls
    ([Prog]) whose continuations take whatever the library answers, a
    value or an exception; [run] plays such a tree against an arbitrary
    implementation of the delegates and records the calls made. *)

From Stdlib Require Import PrimFloat Ascii.
From stdpp Require Import gmap strings pretty list.

Open Scope string_scope.
Open Scope list_scope.

(** ** Python values, exceptions *)

(** The values that reach the adapter as a DataFrame cell, a dict value
    or a stray [model_input].  The adapter only ever asks [is None]. *)
#[local] Set Warnings "-register-all".
Inductive PyVal : Type :=
| VNone
| VStr (s : string)
| VInt (z : Z)
| VList (l : list PyVal).
#[local] Set Warnings "register-all".

Definition is_none (v : PyVal) : bool :=
  match v with VNone => true | _ => false end.

(** [type(v)] as an f-string prints it. *)
Definition type_repr (v : PyVal) : string :=
  match v with
  | VNone => "<class 'NoneType'>"
  | VStr _ => "<class 'str'>"
  | VInt _ => "<class 'int'>"
  | VList _ => "<class 'list'>"
  end.

(** Exception classes.  [KeyboardInterrupt] and [SystemExit] derive from
    [BaseException] only, so [except Exception] lets them through. *)
Inductive ExcClass : Type :=
| ValueError | TypeError | IndexError | KeyError | AttributeError
| OSError | RuntimeError
| KeyboardInterrupt | SystemExit.

Definition is_Exception (c : ExcClass) : bool :=
  match c with
  | KeyboardInterrupt | SystemExit => false
  | _ => true
  end.

(** An exception instance: its class and what [str(e)] gives. *)
Record PyExc : Type := mkExc { exc_class : ExcClass; exc_str : string }.

Inductive Result (A : Type) : Type :=
| Ok (a : A)
| Raised (e : PyExc).
Arguments Ok {A} a.
Arguments Raised {A} e.

(** ** Library objects *)

(** A [SentenceTransformer] instance: the identity of the object and the
    directory or model name it was built from. *)
Record SentenceTransformer : Type :=
  mkST { st_id : nat; st_source : string }.

(** [model.encode(x)] gives a vector, [util.cos_sim(a, b)] a matrix. *)
Definition Embedding : Type := list float.
Definition Tensor : Type := list (list float).

(** [np.array(...)] of a nested list. *)
Record NdArray : Type := mkNd { nd_rows : list (list float) }.

Definition tolist (t : Tensor) : list (list float) := t.
Definition np_array (l : list (list float)) : NdArray := mkNd l.

(** ** Inputs *)

(** A pandas DataFrame: column labels and the rows in positional order.
    [shape[1]] is the number of columns whatever the number of rows. *)
Record DataFrame : Type :=
  mkDF { df_columns : list string; df_rows : list (list PyVal) }.

Definition shape1 (df : DataFrame) : nat := length (df_columns df).

(** Every row of a DataFrame has one cell per column. *)
Definition rectangular (df : DataFrame) : Prop :=
  Forall (λ r : list PyVal, length r = shape1 df) (df_rows df).

(** The [IndexError] for position [i] in an axis of [n] entries.  The
    wording is the array library's; only the class is relied on. *)
Definition index_error (i n : nat) : PyExc :=
  mkExc IndexError
    ("index " +:+ pretty i +:+ " is out of bounds for axis 0 with size "
     +:+ pretty n).

(** [df.iloc[i, j]] *)
Definition iloc (df : DataFrame) (i j : nat) : Result PyVal :=
  match df_rows df !! i with
  | None => Raised (index_error i (length (df_rows df)))
  | Some r =>
      match r !! j with
      | None => Raised (index_error j (length r))
      | Some v => Ok v
      end
  end.

(** [d.get(key)]: the value, or [None] when the key is absent.  Keys are
    strings, which is all a lookup of a string literal can match. *)
Definition dict_get (d : gmap string PyVal) (key : string) : PyVal :=
  match d !! key with
  | Some v => v
  | None => VNone
  end.

(** [d[key]] *)
Definition getitem {V} (d : gmap string V) (key : string) : Result V :=
  match d !! key with
  | Some v => Ok v
  | None => Raised (mkExc KeyError ("'" +:+ key +:+ "'"))
  end.

(** What [predict] can be handed as [model_input]. *)
Inductive ModelInput : Type :=
| InDataFrame (df : DataFrame)
| InDict (d : gmap string PyVal)
| InOther (v : PyVal).

(** The [context] argument: the artifacts recorded when the model was
    logged, name to local path. *)
Record PythonModelContext : Type :=
  mkContext { artifacts : gmap string string }.

(** ** Delegate calls *)

(** A computation that may call into the library.  Each call node
    carries the arguments and a continuation for the library's answer. *)
Inductive Prog (A : Type) : Type :=
| Ret (a : A)
| CallLoad (path : string) (k : Result SentenceTransformer → Prog A)
| CallEncode (m : SentenceTransformer) (x : PyVal)
    (k : Result Embedding → Prog A)
| CallCosSim (a b : Embedding) (k : Result Tensor → Prog A).
Arguments Ret {A} a.
Arguments CallLoad {A} path k.
Arguments CallEncode {A} m x k.
Arguments CallCosSim {A} a b k.

Fixpoint pbind {A B} (p : Prog A) (f : A → Prog B) : Prog B :=
  match p with
  | Ret a => f a
  | CallLoad path k => CallLoad path (λ r, pbind (k r) f)
  | CallEncode m x k => CallEncode m x (λ r, pbind (k r) f)
  | CallCosSim a b k => CallCosSim a b (λ r, pbind (k r) f)
  end.

(** ** The adapter object and its methods *)

(** A [SimilarityModel] instance.  [model] is the one attribute the class
    ever assigns; [None] here is the attribute not being set yet. *)
Record SimilarityModel : Type := mkSelf { model : option SentenceTransformer }.

(** A method body: it runs on [self], may call the library, and ends in
    a value or an exception together with [self] as it then is. *)
Definition M (A : Type) : Type :=
  SimilarityModel → Prog (Result A * SimilarityModel).

Definition ret {A} (a : A) : M A := λ self, Ret (Ok a, self).

Definition raise {A} (e : PyExc) : M A := λ self, Ret (Raised e, self).

Definition bind {A B} (c : M A) (f : A → M B) : M B :=
  λ self, pbind (c self) (λ out,
    match out with
    | (Ok a, self') => f a self'
    | (Raised e, self') => Ret (Raised e, self')
    end).

Declare Scope method_scope.
Delimit Scope method_scope with method.
Notation "x <- c ;; k" := (bind c (λ x, k))
  (at level 100, c at next level, right associativity) : method_scope.

(** A pure expression that may raise. *)
Definition lift {A} (r : Result A) : M A := λ self, Ret (r, self).

(** [self.model] *)
Definition getattr_model : M SentenceTransformer :=
  λ self,
    match model self with
    | Some m => Ret (Ok m, self)
    | None =>
        Ret (Raised (mkExc AttributeError
               "'SimilarityModel' object has no attribute 'model'"), self)
    end.

(** [self.model = m] *)
Definition setattr_model (m : SentenceTransformer) : M unit :=
  λ _, Ret (Ok tt, mkSelf (Some m)).

Definition ST_load (path : string) : M SentenceTransformer :=
  λ self, CallLoad path (λ r, Ret (r, self)).

Definition encode (m : SentenceTransformer) (x : PyVal) : M Embedding :=
  λ self, CallEncode m x (λ r, Ret (r, self)).

Definition cos_sim (a b : Embedding) : M Tensor :=
  λ self, CallCosSim a b (λ r, Ret (r, self)).

(** [try: body except Exception as e: handler] *)
Definition try_except {A} (body : M A) (handler : PyExc → M A) : M A :=
  λ self, pbind (body self) (λ out,
    match out with
    | (Ok a, self') => Ret (Ok a, self')
    | (Raised e, self') =>
        if is_Exception (exc_class e) then handler e self'
        else Ret (Raised e, self')
    end).

Module SimilarityModel.

Open Scope method_scope.

(** [load_context(self, context)] *)
Definition load_context (context : PythonModelContext) : M unit :=
  try_except
    (path <- lift (getitem (artifacts context) "model_path");;
     m <- ST_load path;;
     setattr_model m)
    (λ e, raise (mkExc ValueError ("Error loading model: " +:+ exc_str e))).

(** [predict(self, context, model_input, params)] *)
Definition predict (context : PythonModelContext) (model_input : ModelInput)
    (params : PyVal) : M NdArray :=
  fields <-
    match model_input with
    | InDataFrame df =>
        if negb (shape1 df =? 2)%nat then
          raise (mkExc ValueError
                   "DataFrame input must have exactly two columns.")
        else
          a <- lift (iloc df 0 0);;
          b <- lift (iloc df 0 1);;
          ret (a, b)
    | InDict d =>
        let sentence_1 := dict_get d "sentence_1" in
        let sentence_2 := dict_get d "sentence_2" in
        if is_none sentence_1 || is_none sentence_2 then
          raise (mkExc ValueError
                   "Both 'sentence_1' and 'sentence_2' must be provided in the input dictionary.")
        else ret (sentence_1, sentence_2)
    | InOther v =>
        raise (mkExc TypeError
                 ("Unexpected type for model_input: " +:+ type_repr v
                  +:+ ". Must be either a Dict or a DataFrame."))
    end;;
  let '(sentence_1, sentence_2) := fields in
  m1 <- getattr_model;;
  embedding_1 <- encode m1 sentence_1;;
  m2 <- getattr_model;;
  embedding_2 <- encode m2 sentence_2;;
  t <- cos_sim embedding_1 embedding_2;;
  ret (np_array (tolist t)).

End SimilarityModel.

Import SimilarityModel.

(** ** Playing a computation against the library *)

(** An implementation of the three library functions.  [W] is whatever
    the library and the file system keep between calls; every function
    answers with a value or an exception. *)
Record Delegates (W : Type) : Type := mkDelegates {
  d_load : string → W → Result SentenceTransformer * W;
  d_encode : SentenceTransformer → PyVal → W → Result Embedding * W;
  d_cos_sim : Embedding → Embedding → W → Result Tensor * W
}.
Arguments d_load {W} d path w.
Arguments d_encode {W} d m x w.
Arguments d_cos_sim {W} d a b w.

(** One entry of the call log. *)
Inductive Call : Type :=
| LoadCall (path : string)
| EncodeCall (m : SentenceTransformer) (x : PyVal)
| CosSimCall (a b : Embedding).

(** [run d p w]: the calls made in order, the library state left behind
    and the outcome. *)
Fixpoint run {W A} (d : Delegates W) (p : Prog A) (w : W) : list Call * W * A :=
  match p with
  | Ret a => ([], w, a)
  | CallLoad path k =>
      let '(r, w1) := d_load d path w in
      let '(log, w2, out) := run d (k r) w1 in
      (LoadCall path :: log, w2, out)
  | CallEncode m x k =>
      let '(r, w1) := d_encode d m x w in
      let '(log, w2, out) := run d (k r) w1 in
      (EncodeCall m x :: log, w2, out)
  | CallCosSim a b k =>
      let '(r, w1) := d_cos_sim d a b w in
      let '(log, w2, out) := run d (k r) w1 in
      (CosSimCall a b :: log, w2, out)
  end.

Definition calls_of {W A} (out : list Call * W * A) : list Call := out.1.1.
Definition outcome_of {W A} (out : list Call * W * A) : A := out.2.

Definition is_cos_sim (c : Call) : bool :=
  match c with CosSimCall _ _ => true | _ => false end.

(** ** Shapes of input *)

(** [designated mi s1 s2]: [mi] has one of the two accepted shapes and
    [s1], [s2] are its two designated fields, the first row's two cells
    of a two-column frame or the non-null values under the two keys. *)
Inductive designated : ModelInput → PyVal → PyVal → Prop :=
| designated_frame df s1 s2 rest :
    shape1 df = 2%nat →
    df_rows df = [s1; s2] :: rest →
    designated (InDataFrame df) s1 s2
| designated_dict (d : gmap string PyVal) s1 s2 :
    d !! "sentence_1" = Some s1 → s1 ≠ VNone →
    d !! "sentence_2" = Some s2 → s2 ≠ VNone →
    designated (InDict d) s1 s2.

(** The messages of the two validation errors and of the type error. *)
Definition two_columns_error : PyExc :=
  mkExc ValueError "DataFrame input must have exactly two columns.".

Definition both_keys_error : PyExc :=
  mkExc ValueError
    "Both 'sentence_1' and 'sentence_2' must be provided in the input dictionary.".

Definition unexpected_type_error (v : PyVal) : PyExc :=
  mkExc TypeError
    ("Unexpected type for model_input: " +:+ type_repr v
     +:+ ". Must be either a Dict or a DataFrame.").

(** The chain of calls the scoring amounts to: embed the first field,
    embed the second, compare the two embeddings; an exception of the
    library ends the chain and comes out of [predict]. *)
Definition scoring_chain (m : SentenceTransformer) (s1 s2 : PyVal)
    (self : SimilarityModel) : Prog (Result NdArray * SimilarityModel) :=
  CallEncode m s1 (λ r1,
    match r1 with
    | Raised e => Ret (Raised e, self)
    | Ok e1 =>
        CallEncode m s2 (λ r2,
          match r2 with
          | Raised e => Ret (Raised e, self)
          | Ok e2 =>
              CallCosSim e1 e2 (λ r3,
                match r3 with
                | Raised e => Ret (Raised e, self)
                | Ok t => Ret (Ok (np_array (tolist t)), self)
                end)
          end)
    end).

(** A key of a dict is missing or holds [None]. *)
Definition missing_or_null (d : gmap string PyVal) (key : string) : Prop :=
  d !! key = None ∨ d !! key = Some VNone.

(** The inputs the second testable property speaks of: a dict that
    lacks one of the two fields, or holds [None] there, and anything
    that is neither a frame nor a dict. *)
Definition lacks_field (mi : ModelInput) : Prop :=
  match mi with
  | InDataFrame _ => False
  | InDict d =>
      missing_or_null d "sentence_1" ∨ missing_or_null d "sentence_2"
  | InOther _ => True
  end.

(** The inputs the validation of [predict] lets through: a frame of two
    columns, or a dict whose two keys both hold something. *)
Definition passes_validation (mi : ModelInput) : Prop :=
  match mi with
  | InDataFrame df => shape1 df = 2%nat
  | InDict d =>
      dict_get d "sentence_1" ≠ VNone ∧ dict_get d "sentence_2" ≠ VNone
  | InOther _ => False
  end.

(** The error a rejected input is answered with. *)
Definition rejection (mi : ModelInput) : PyExc :=
  match mi with
  | InDataFrame _ => two_columns_error
  | InDict _ => both_keys_error
  | InOther v => unexpected_type_error v
  end.

(** What [load_context] raises for an underlying failure [e]. *)
Definition load_error (e : PyExc) : PyExc :=
  mkExc ValueError ("Error loading model: " +:+ exc_str e).

(** Two computations make the same calls, the first on the model
    instance [m1] where the second is on [m2]: the same library
    function with the same arguments at every step, every embedding
    call of the first going to [m1] and of the second to [m2], and, the
    library answering alike, outcomes related by [R]. *)
Inductive same_calls {A} (m1 m2 : SentenceTransformer) (R : A → A → Prop)
    : Prog A → Prog A → Prop :=
| same_ret a1 a2 :
    R a1 a2 → same_calls m1 m2 R (Ret a1) (Ret a2)
| same_load path k1 k2 :
    (∀ r, same_calls m1 m2 R (k1 r) (k2 r)) →
    same_calls m1 m2 R (CallLoad path k1) (CallLoad path k2)
| same_encode x k1 k2 :
    (∀ r, same_calls m1 m2 R (k1 r) (k2 r)) →
    same_calls m1 m2 R (CallEncode m1 x k1) (CallEncode m2 x k2)
| same_cos_sim a b k1 k2 :
    (∀ r, same_calls m1 m2 R (k1 r) (k2 r)) →
    same_calls m1 m2 R (CallCosSim a b k1) (CallCosSim a b k2).

(** Same value returned or same exception raised. *)
Definition same_result {A} (o1 o2 : Result A * SimilarityModel) : Prop :=
  o1.1 = o2.1.

(** ** A library to run examples against *)

(** Every load makes a new object; the embedding and the score are
    fixed.  The state counts the objects made so far. *)
Definition stub_library : Delegates nat :=
  mkDelegates nat
    (λ path n, (Ok (mkST n path), S n))
    (λ _ _ n, (Ok [0.5%float; 0.25%float], n))
    (λ _ _ n, (Ok [[0.625%float]], n)).

(** The model directory is gone: every load fails. *)
Definition broken_library : Delegates nat :=
  mkDelegates nat
    (λ path n, (Raised (mkExc OSError ("Path " +:+ path +:+ " not found")), n))
    (λ _ _ n, (Ok [], n))
    (λ _ _ n, (Ok [], n)).

Definition sbert_context : PythonModelContext :=
  mkContext {[ "model_path" := "/tmp/sbert_model" ]}.

Definition loaded_adapter : SimilarityModel :=
  mkSelf (Some (mkST 0 "/tmp/sbert_model")).

(** The frame and the dict of the tutorial's inference cells. *)
Definition similarity_data : DataFrame :=
  mkDF ["sentence_1"; "sentence_2"]
       [[VStr "I like apples"; VStr "I like oranges"]].

Definition similarity_dict : gmap string PyVal :=
  {[ "sentence_1" := VStr "I like apples";
     "sentence_2" := VStr "I like oranges" ]}.

(** Two columns and no row. *)
Definition empty_frame : DataFrame :=
  mkDF ["sentence_1"; "sentence_2"] [].

(** Three columns. *)
Definition wide_frame : DataFrame :=
  mkDF ["sentence_1"; "sentence_2"; "language"]
       [[VStr "I like apples"; VStr "I like oranges"; VStr "en"]].

(** The tutorial's frame with a second row under the first. *)
Definition longer_frame : DataFrame :=
  mkDF ["sentence_1"; "sentence_2"]
       [[VStr "I like apples"; VStr "I like oranges"];
        [VStr "I prefer cookies."; VNone]].

(** A dict with a third key next to the two required ones. *)
Definition annotated_dict : gmap string PyVal :=
  <[ "language" := VStr "en" ]> similarity_dict.

(** Only the first sentence is given. *)
Definition half_dict : gmap string PyVal :=
  {[ "sentence_1" := VStr "I like apples" ]}.

(** ** The notebooks as scripts *)

Module Notebook.

(** The flavour module a tracking call goes through. *)
Inductive Flavor : Type := pyfunc | sentence_transformers | transformers.

(** The statements of a notebook that touch a model, in cell order.
    Names are the notebook's variables. *)
Inductive Stmt : Type :=
| Build (x : string)
    (* x = SentenceTransformer(..) or transformers.pipeline(..) *)
| Infer (x : string)
    (* x.predict(..), x.encode(..), x(..), x.generate(..) *)
| LogModel (info : string) (fl : Flavor) (x : option string)
    (* info = mlflow.<fl>.log_model(x, ..); no x: the model is built in
       the call *)
| LoadModel (y : string) (fl : Flavor) (info : string)
    (* y = mlflow.<fl>.load_model(info.model_uri) *)
| Derive (y x : string)
    (* y is a part of the loaded x, or is put together from its parts *)
| Client (fn : string).
    (* any other call of the tracking client *)

(** What a statement does to the models: a reference comes into being,
    an instance is loaded from a reference, an instance is asked for a
    prediction.  Objects and references are numbered as they are made. *)
Inductive Event : Type :=
| Logged (ref : nat)
| Loaded (obj ref : nat)
| Inferred (obj : nat).

(** The kernel's name space: variables bound to model objects, variables
    bound to a logged model's info, and the next free number. *)
Record Kernel : Type := mkKernel {
  vars : gmap string nat;
  infos : gmap string nat;
  fresh : nat
}.

Definition fresh_kernel : Kernel := mkKernel ∅ ∅ 0.

(** One statement; [None] is a NameError. *)
Definition exec_stmt (s : Stmt) (k : Kernel) : option (list Event * Kernel) :=
  match s with
  | Build x =>
      Some ([], mkKernel (<[x := fresh k]> (vars k)) (infos k) (S (fresh k)))
  | Infer x =>
      o ← vars k !! x; Some ([Inferred o], k)
  | LogModel info fl x =>
      _ ← match x with Some x => vars k !! x | None => Some 0%nat end;
      Some ([Logged (fresh k)],
            mkKernel (vars k) (<[info := fresh k]> (infos k)) (S (fresh k)))
  | LoadModel y fl info =>
      r ← infos k !! info;
      Some ([Loaded (fresh k) r],
            mkKernel (<[y := fresh k]> (vars k)) (infos k) (S (fresh k)))
  | Derive y x =>
      o ← vars k !! x;
      Some ([], mkKernel (<[y := o]> (vars k)) (infos k) (fresh k))
  | Client _ => Some ([], k)
  end.

Fixpoint exec (script : list Stmt) (k : Kernel) : option (list Event) :=
  match script with
  | [] => Some []
  | s :: rest =>
      '(evs, k') ← exec_stmt s k;
      more ← exec rest k';
      Some (evs ++ more)
  end.

(** sentence-transformers-quickstart.ipynb *)
Definition quickstart : list Stmt :=
  [ Build "model";                      (* model = SentenceTransformer(..) *)
    Infer "model";                      (* model.encode(example_sentences) *)
    Client "infer_signature";
    Client "set_experiment";
    LogModel "logged_model" sentence_transformers (Some "model");
    LoadModel "loaded_model_pyfunc" pyfunc "logged_model";
    Infer "loaded_model_pyfunc";        (* .predict(inference_test) *)
    LoadModel "loaded_model_native" sentence_transformers "logged_model";
    Infer "loaded_model_native" ].      (* .encode(inference_test) *)

(** semantic-similarity-sentence-transformers.ipynb *)
Definition semantic_similarity : list Stmt :=
  [ Build "model";                      (* model = SentenceTransformer(..) *)
    Infer "model"; Infer "model";       (* the two model.encode(..) *)
    Client "infer_signature";
    Client "set_experiment";
    LogModel "model_info" pyfunc None;  (* python_model=SimilarityModel() *)
    LoadModel "loaded_dynamic" pyfunc "model_info";
    Infer "loaded_dynamic";             (* .predict(similarity_data) *)
    Infer "loaded_dynamic";             (* .predict(low_similarity) *)
    Infer "loaded_dynamic" ].           (* .predict(high_similarity) *)

(** component-translation.ipynb *)
Definition translation : list Stmt :=
  [ Build "translation_pipeline";       (* transformers.pipeline(..) *)
    Infer "translation_pipeline";       (* translation_pipeline(..) *)
    Infer "translation_pipeline";       (* generate_signature_output(..) *)
    Client "infer_signature";
    Client "set_experiment";
    LogModel "model_info" transformers (Some "translation_pipeline");
    LoadModel "translation_components" transformers "model_info";
    LoadModel "translation_pipeline" transformers "model_info";
    Infer "translation_pipeline";       (* translation_pipeline(..) *)
    Derive "reconstructed_pipeline" "translation_components";
    Infer "reconstructed_pipeline";
    Derive "tokenizer" "translation_components";
    Derive "model" "translation_components";
    Infer "model" ].                    (* model.generate(inputs) *)

Definition notebooks : list (list Stmt) :=
  [quickstart; semantic_similarity; translation].

(** A model is logged before it is loaded by the reference. *)
Definition log_before_load (tr : list Event) : Prop :=
  ∀ pre o r post, tr = pre ++ Loaded o r :: post → Logged r ∈ pre.

(** An instance is loaded before it is asked anything. *)
Definition load_before_infer (tr : list Event) : Prop :=
  ∀ pre o post r, tr = pre ++ Inferred o :: post → Loaded o r ∉ post.

(** No loaded instance is asked anything before its model is logged. *)
Definition log_before_infer (tr : list Event) : Prop :=
  ∀ pre o post r,
    tr = pre ++ Inferred o :: post → Loaded o r ∈ pre → Logged r ∈ pre.

Definition ordered (tr : list Event) : Prop :=
  log_before_load tr ∧ load_before_infer tr ∧ log_before_infer tr.

(** The three steps do take place: a model is logged, later an instance
    is loaded by that reference, later still that instance is asked for
    a prediction. *)
Definition exercised (tr : list Event) : Prop :=
  ∃ i j k r o,
    (i < j)%nat ∧ (j < k)%nat ∧
    tr !! i = Some (Logged r) ∧
    tr !! j = Some (Loaded o r) ∧
    tr !! k = Some (Inferred o).

(** Nothing is loaded for nothing: every loaded instance is asked for a
    prediction afterwards. *)
Definition loads_used (tr : list Event) : Prop :=
  ∀ j o r, tr !! j = Some (Loaded o r) →
    ∃ k, (j < k)%nat ∧ tr !! k = Some (Inferred o).

(** The two checks that decide it, [seen] being the references logged
    so far. *)
Fixpoint logs_first (seen : list nat) (tr : list Event) : bool :=
  match tr with
  | [] => true
  | Logged r :: rest => logs_first (r :: seen) rest
  | Loaded _ r :: rest => bool_decide (r ∈ seen) && logs_first seen rest
  | Inferred _ :: rest => logs_first seen rest
  end.

Definition loads (o : nat) (e : Event) : bool :=
  match e with Loaded o' _ => bool_decide (o' = o) | _ => false end.

Fixpoint loads_first (tr : list Event) : bool :=
  match tr with
  | [] => true
  | Inferred o :: rest => negb (existsb (loads o) rest) && loads_first rest
  | _ :: rest => loads_first rest
  end.

End Notebook.

(** ** The range of a score *)






(** ** The rest of the notebooks' code *)

(** *** Cleaning the decoded translation (component-translation.ipynb) *)

(** [s.startswith(old)] *)
Fixpoint starts_with (old s : string) : bool :=
  match old, s with
  | EmptyString, _ => true
  | String _ _, EmptyString => false
  | String a old', String c s' => Ascii.eqb a c && starts_with old' s'
  end.

(** The scan of [str.replace] for a pattern that is not empty: left to
    right, an occurrence is replaced by [new] and the scan goes on
    behind it.  [skip] counts the characters of the occurrence still to
    be passed over. *)
Fixpoint replace_from (old new : string) (skip : nat) (s : string) : string :=
  match s with
  | EmptyString => EmptyString
  | String c rest =>
      match skip with
      | S k => replace_from old new k rest
      | O =>
          if starts_with old s
          then new +:+ replace_from old new (String.length old - 1) rest
          else String c (replace_from old new 0 rest)
      end
  end.

(** With the empty pattern [new] goes before every character and at the
    end. *)
Fixpoint interleave (new s : string) : string :=
  match s with
  | EmptyString => EmptyString
  | String c rest => String c (new +:+ interleave new rest)
  end.

(** [s.replace(old, new)].  A string is its UTF-8 bytes; for the ASCII
    patterns at hand scanning the bytes and scanning the characters
    find the same occurrences. *)
Definition str_replace (old new s : string) : string :=
  match old with
  | EmptyString => new +:+ interleave new s
  | String _ _ => replace_from old new 0 s
  end.

Definition newline : string := String "010"%char EmptyString.

(** What the last cell prints for the decoded [result]:
    [result.replace("<pad> ", "\n").replace("</s>", "")]. *)
Definition printed_result (result : string) : string :=
  str_replace "</s>" "" (str_replace "<pad> " newline result).

(** The character [c] occurs in [s]. *)
Fixpoint occurs (c : Ascii.ascii) (s : string) : bool :=
  match s with
  | EmptyString => false
  | String a rest => Ascii.eqb c a || occurs c rest
  end.

(** *** Reporting the sizes of the embeddings (quickstart) *)

(** [a[i]] on an array of rows. *)
Definition getitem_row {A} (a : list A) (i : nat) : Result A :=
  match a !! i with
  | Some x => Ok x
  | None => Raised (index_error i (length a))
  end.

(** [enumerate(l)], counting from [start]. *)
Fixpoint enumerate_from {A} (start : nat) (l : list A) : list (nat * A) :=
  match l with
  | [] => []
  | x :: rest => (start, x) :: enumerate_from (S start) rest
  end.

Definition enumerate {A} (l : list A) : list (nat * A) := enumerate_from 0 l.

(** The loop
    [for i, embedding in enumerate(embeddings_test):
       print(f"The size of embedding {i + 1} is: {len(embeddings_test[i])}")]
    over the items still to come: the lines printed, and the exception
    that stopped the loop if one did. *)
Fixpoint size_loop (embeddings_test : list Embedding)
    (items : list (nat * Embedding)) : list string * option PyExc :=
  match items with
  | [] => ([], None)
  | (i, embedding) :: rest =>
      match getitem_row embeddings_test i with
      | Raised e => ([], Some e)
      | Ok row =>
          let line :=
            "The size of embedding " +:+ pretty (i + 1)%nat +:+ " is: "
            +:+ pretty (length row) in
          let '(lines, stop) := size_loop embeddings_test rest in
          (line :: lines, stop)
      end
  end.

(** The cell that checks the shape of [embeddings_test]. *)
Definition size_report (embeddings_test : list Embedding)
    : list string * option PyExc :=
  let first :=
    "The return structure length is: " +:+ pretty (length embeddings_test) in
  let '(lines, stop) := size_loop embeddings_test (enumerate embeddings_test) in
  (first :: lines, stop).

(** A decoded translation, and a batch of three embeddings. *)
Definition decoded_example : string :=
  "<pad> La liberte, l'egalite, la fraternite ou la mort.</s>".

Definition three_embeddings : list Embedding :=
  [[0.5%float; 0.25%float]; []; [0.5%float]].

(** A library whose model runs out of memory at its call number
    [fail_at], the state counting the calls of the model. *)
Definition out_of_memory : PyExc := mkExc RuntimeError "CUDA out of memory".

Definition flaky_library (fail_at : nat) : Delegates nat :=
  mkDelegates nat
    (λ path n, (Ok (mkST n path), n))
    (λ _ _ n, (if bool_decide (n = fail_at) then Raised out_of_memory
               else Ok [0.5%float; 0.25%float], S n))
    (λ _ _ n, (if bool_decide (n = fail_at) then Raised out_of_memory
               else Ok [[0.625%float]], S n)).

(** The adapter's complaint when [self.model] was never assigned. *)
Definition no_model_error : PyExc :=
  mkExc AttributeError "'SimilarityModel' object has no attribute 'model'".

(** A call that goes to the model instance [m], or to no instance. *)
Definition through (m : SentenceTransformer) (c : Call) : Prop :=
  match c with
  | EncodeCall m' _ => m' = m
  | CosSimCall _ _ => True
  | LoadCall _ => False
  end.

(** A call that is not a load. *)
Definition model_call (c : Call) : Prop :=
  match c with LoadCall _ => False | _ => True end.

(** A library whose load is interrupted from the keyboard. *)
Definition interrupted_library : Delegates nat :=
  mkDelegates nat
    (λ path n, (Raised (mkExc KeyboardInterrupt ""), n))
    (λ _ _ n, (Ok [], n))
    (λ _ _ n, (Ok [], n)).

(** A frame with a null in its first row, and the dict with the same
    values. *)
Definition null_frame : DataFrame :=
  mkDF ["sentence_1"; "sentence_2"] [[VNone; VStr "I like oranges"]].

Definition null_dict : gmap string PyVal :=
  {[ "sentence_1" := VNone; "sentence_2" := VStr "I like oranges" ]}.

(** Look for the positions of a log, a load and an inference among the
    first events of a trace that is written out. *)
Ltac steps_at i j k :=
  exists i, j, k; do 2 eexists;
  split; [lia|]; split; [lia|]; split; [reflexivity|];
  split; reflexivity.

Ltac find_steps :=
  unfold Notebook.exercised;
  first [ solve [steps_at 1%nat 2%nat 3%nat]
        | solve [steps_at 2%nat 3%nat 4%nat]
        | solve [steps_at 2%nat 4%nat 5%nat] ].

(** Go through the events of a trace that is written out and point at
    an inference behind each load. *)
Ltac find_uses :=
  let j := fresh "j" in
  let H := fresh "H" in
  intros j ? ? H;
  do 9 (destruct j as [|j];
        [cbn in H; try discriminate H; injection H as <- <-;
         first [ exists 3%nat; split; [lia|reflexivity]
               | exists 4%nat; split; [lia|reflexivity]
               | exists 5%nat; split; [lia|reflexivity]
               | exists 6%nat; split; [lia|reflexivity] ] |]);
  cbn in H; discriminate H.

(** Case analysis on what the library answers to each call in the goal. *)
Ltac answer_calls :=
  repeat match goal with
    | |- context [d_encode ?d ?m ?x ?w] =>
        destruct (d_encode d m x w) as [[?|?] ?]; cbn
    | |- context [d_cos_sim ?d ?a ?b ?w] =>
        destruct (d_cos_sim d a b w) as [[?|?] ?]; cbn
    end.

(** * Properties *)

(** ** predict: what it is on each shape of input *)

Lemma is_none_false v : v ≠ VNone → is_none v = false.
Proof. by destruct v. Qed.

Lemma is_none_true v : is_none v = true ↔ v = VNone.
Proof. destruct v; split; intros H; done. Qed.

Lemma dict_get_null (d : gmap string PyVal) key :
  missing_or_null d key ↔ dict_get d key = VNone.
Proof.
  unfold missing_or_null, dict_get.
  destruct (d !! key) as [v|]; split.
  - by intros [?|[= ->]].
  - intros ->. by right.
  - done.
  - by left.
Qed.

(** A frame of two columns with at least one row has its two designated
    fields, as long as its rows are as wide as the frame. *)
Lemma rectangular_designated df r rest :
  rectangular df → shape1 df = 2%nat → df_rows df = r :: rest →
  ∃ s1 s2, designated (InDataFrame df) s1 s2.
Proof.
  intros Hrect Hc Hr. unfold rectangular in Hrect. rewrite Hr, Hc in Hrect.
  apply Forall_cons_1 in Hrect as [Hlen _].
  destruct r as [|s1 [|s2 [|? ?]]]; try discriminate.
  exists s1, s2. by eapply designated_frame.
Qed.

(** With the model loaded, an input of an accepted shape makes [predict]
    the chain of three calls on its two fields. *)
Lemma predict_designated context mi params m s1 s2 :
  designated mi s1 s2 →
  predict context mi params (mkSelf (Some m))
  = scoring_chain m s1 s2 (mkSelf (Some m)).
Proof.
  intros [df a b rest Hc Hr | d a b Ha Hna Hb Hnb].
  - unfold predict, bind. rewrite Hc. cbn. unfold iloc. rewrite Hr. cbn.
    reflexivity.
  - unfold predict, bind, dict_get. rewrite Ha, Hb.
    rewrite (is_none_false a), (is_none_false b) by done. reflexivity.
Qed.

Lemma passes_validation_dec mi : Decision (passes_validation mi).
Proof.
  unfold Decision. destruct mi as [df|d|v]; cbv [passes_validation].
  - destruct (decide (shape1 df = 2%nat)); [by left | by right].
  - destruct (dict_get d "sentence_1"), (dict_get d "sentence_2");
      try (by left); right; intros [? ?]; done.
  - right. intros [].
Qed.

(** An input that fails validation is answered at once. *)
Lemma predict_rejected context mi params self :
  ¬ passes_validation mi →
  predict context mi params self = Ret (Raised (rejection mi), self).
Proof.
  destruct mi as [df|d|v]; cbv [passes_validation]; intros Hno.
  - unfold predict, bind.
    destruct (Nat.eqb_spec (shape1 df) 2) as [?|_]; [done|]. reflexivity.
  - unfold predict, bind.
    destruct (is_none (dict_get d "sentence_1")) eqn:E1; [reflexivity|].
    destruct (is_none (dict_get d "sentence_2")) eqn:E2; [reflexivity|].
    destruct Hno. split; intros H; apply is_none_true in H; congruence.
  - reflexivity.
Qed.

(** The chain against any library. *)
Lemma run_scoring_chain {W} (d : Delegates W) w m s1 s2 self :
  run d (scoring_chain m s1 s2 self) w =
  match d_encode d m s1 w with
  | (Raised e, w1) => ([EncodeCall m s1], w1, (Raised e, self))
  | (Ok e1, w1) =>
      match d_encode d m s2 w1 with
      | (Raised e, w2) =>
          ([EncodeCall m s1; EncodeCall m s2], w2, (Raised e, self))
      | (Ok e2, w2) =>
          match d_cos_sim d e1 e2 w2 with
          | (Raised e, w3) =>
              ([EncodeCall m s1; EncodeCall m s2; CosSimCall e1 e2], w3,
               (Raised e, self))
          | (Ok t, w3) =>
              ([EncodeCall m s1; EncodeCall m s2; CosSimCall e1 e2], w3,
               (Ok (np_array (tolist t)), self))
          end
      end
  end.
Proof.
  unfold scoring_chain. cbn.
  destruct (d_encode d m s1 w) as [[e1|ex] w1]; cbn; [|done].
  destruct (d_encode d m s2 w1) as [[e2|ex] w2]; cbn; [|done].
  by destruct (d_cos_sim d e1 e2 w2) as [[t|ex] w3].
Qed.

(** C1, amended.  For a frame of exactly two columns and at least one
    row, or a dict holding non-null values under 'sentence_1' and
    'sentence_2', [predict] on a loaded adapter takes exactly the two
    designated fields and forwards them unchanged: the first call it
    makes is the embedding of the first field as it is, the next, once
    that answered, the embedding of the second field as it is, and,
    once that answered, the two embeddings go to the cosine similarity;
    no other call is made. *)
Theorem predict_forwards_designated_fields
    W (d : Delegates W) w context mi params m s1 s2 :
  designated mi s1 s2 →
  let out := run d (predict context mi params (mkSelf (Some m))) w in
  calls_of out !! 0%nat = Some (EncodeCall m s1) ∧
  ∀ e1 w1, d_encode d m s1 w = (Ok e1, w1) →
    calls_of out !! 1%nat = Some (EncodeCall m s2) ∧
    ∀ e2 w2, d_encode d m s2 w1 = (Ok e2, w2) →
      calls_of out = [EncodeCall m s1; EncodeCall m s2; CosSimCall e1 e2].
Proof.
  intros Hd. cbn zeta. rewrite (predict_designated _ _ _ _ _ _ Hd).
  rewrite run_scoring_chain. split.
  - destruct (d_encode d m s1 w) as [[e1|ex] w1]; [|done].
    destruct (d_encode d m s2 w1) as [[e2|ex] w2]; [|done].
    by destruct (d_cos_sim d e1 e2 w2) as [[t|ex] w3].
  - intros e1 w1 ->. split.
    + destruct (d_encode d m s2 w1) as [[e2|ex] w2]; [|done].
      by destruct (d_cos_sim d e1 e2 w2) as [[t|ex] w3].
    + intros e2 w2 ->.
      by destruct (d_cos_sim d e1 e2 w2) as [[t|ex] w3].
Qed.

Lemma predict_forwards_designated_fields_witness :
  designated (InDataFrame similarity_data)
    (VStr "I like apples") (VStr "I like oranges") ∧
  calls_of (run stub_library
              (predict sbert_context (InDataFrame similarity_data) VNone
                 loaded_adapter) 0%nat)
  = [EncodeCall (mkST 0 "/tmp/sbert_model") (VStr "I like apples");
     EncodeCall (mkST 0 "/tmp/sbert_model") (VStr "I like oranges");
     CosSimCall [0.5%float; 0.25%float] [0.5%float; 0.25%float]].
Proof.
  assert (H : designated (InDataFrame similarity_data)
                (VStr "I like apples") (VStr "I like oranges"))
    by (eapply designated_frame; reflexivity).
  split; [exact H|].
  destruct (predict_forwards_designated_fields nat stub_library 0%nat
              sbert_context _ VNone (mkST 0 "/tmp/sbert_model") _ _ H)
    as [_ H2].
  destruct (H2 _ _ eq_refl) as [_ H3].
  exact (H3 _ _ eq_refl).
Defined.

(** C1 as stated fails on a frame of two columns that has no row: there
    is no first row to take the fields from, pandas raises an
    [IndexError] and nothing is forwarded. *)
Lemma predict_empty_frame_forwards_nothing :
  shape1 empty_frame = 2%nat ∧
  run stub_library
    (predict sbert_context (InDataFrame empty_frame) VNone loaded_adapter)
    0%nat
  = ([], 0%nat, (Raised (index_error 0 0), loaded_adapter)).
Proof. split; reflexivity. Qed.

(** ** Rejection *)

Lemma lacks_field_fails_validation mi :
  lacks_field mi → ¬ passes_validation mi.
Proof.
  destruct mi as [df|d|v]; cbv [lacks_field passes_validation].
  - intros [].
  - intros [H|H]; apply dict_get_null in H; intros [? ?]; done.
  - intros _ [].
Qed.

(** C2.  A dict in which 'sentence_1' or 'sentence_2' is missing or
    null, and any input that is neither a DataFrame nor a dict, makes
    [predict] raise, a [ValueError] for the dict and a [TypeError]
    otherwise, with no call made to the model: the call log is empty,
    whatever the library and whatever the adapter's state. *)
Theorem predict_rejects_before_model
    W (d : Delegates W) w context mi params self :
  lacks_field mi →
  run d (predict context mi params self) w
  = ([], w, (Raised (rejection mi), self)) ∧
  exc_class (rejection mi)
  = match mi with InOther _ => TypeError | _ => ValueError end.
Proof.
  intros H. split.
  - by rewrite predict_rejected by by apply lacks_field_fails_validation.
  - by destruct mi.
Qed.

Lemma predict_rejects_before_model_witness :
  lacks_field (InDict half_dict) ∧
  run stub_library
    (predict sbert_context (InDict half_dict) VNone loaded_adapter) 0%nat
  = ([], 0%nat, (Raised both_keys_error, loaded_adapter)).
Proof.
  assert (H : lacks_field (InDict half_dict)) by (right; left; reflexivity).
  split; [exact H|].
  exact (proj1 (predict_rejects_before_model nat stub_library 0%nat
                  sbert_context (InDict half_dict) VNone loaded_adapter H)).
Defined.

(** ** The single scoring call *)

(** C4.  On an accepted input [predict] never calls the cosine
    similarity more than once, and, the two embedding calls having
    answered, calls it exactly once, on the embeddings of the two
    fields, and ends the way that call ends: it returns the matrix the
    call returned, as an array, or raises what the call raised. *)
Theorem predict_one_cos_sim_call
    W (d : Delegates W) w context mi params m s1 s2 :
  designated mi s1 s2 →
  let out := run d (predict context mi params (mkSelf (Some m))) w in
  (length (List.filter is_cos_sim (calls_of out)) ≤ 1)%nat ∧
  ∀ e1 w1 e2 w2 r w3,
    d_encode d m s1 w = (Ok e1, w1) →
    d_encode d m s2 w1 = (Ok e2, w2) →
    d_cos_sim d e1 e2 w2 = (r, w3) →
    List.filter is_cos_sim (calls_of out) = [CosSimCall e1 e2] ∧
    (outcome_of out).1
    = match r with
      | Ok t => Ok (np_array (tolist t))
      | Raised e => Raised e
      end ∧
    ∀ t, r = Ok t →
      ∃ arr, (outcome_of out).1 = Ok arr ∧ nd_rows arr = t.
Proof.
  intros Hd. cbn zeta. rewrite (predict_designated _ _ _ _ _ _ Hd).
  rewrite run_scoring_chain. split.
  - destruct (d_encode d m s1 w) as [[e1|ex] w1]; [|cbn; lia].
    destruct (d_encode d m s2 w1) as [[e2|ex] w2]; [|cbn; lia].
    destruct (d_cos_sim d e1 e2 w2) as [[t|ex] w3]; cbn; lia.
  - intros e1 w1 e2 w2 r w3 -> -> ->.
    destruct r as [t|ex]; cbn; (split; [done|]); (split; [done|]).
    + intros ? [= <-]. by eexists.
    + by intros ? [=].
Qed.

Lemma predict_one_cos_sim_call_witness :
  designated (InDict similarity_dict)
    (VStr "I like apples") (VStr "I like oranges") ∧
  List.filter is_cos_sim
    (calls_of (run stub_library
                 (predict sbert_context (InDict similarity_dict) VNone
                    loaded_adapter) 0%nat))
  = [CosSimCall [0.5%float; 0.25%float] [0.5%float; 0.25%float]] ∧
  (outcome_of (run stub_library
                 (predict sbert_context (InDict similarity_dict) VNone
                    loaded_adapter) 0%nat)).1
  = Ok (mkNd [[0.625%float]]).
Proof.
  assert (H : designated (InDict similarity_dict)
                (VStr "I like apples") (VStr "I like oranges"))
    by (apply designated_dict; done).
  split; [exact H|].
  destruct (predict_one_cos_sim_call nat stub_library 0%nat sbert_context
              _ VNone (mkST 0 "/tmp/sbert_model") _ _ H) as [_ H2].
  destruct (H2 _ _ _ _ _ _ eq_refl eq_refl eq_refl) as (H3 & H4 & _).
  exact (conj H3 H4).
Defined.

(** ** The range of the score *)




(** ** Validation *)

(** C5, amended.  [predict] lets through a frame only when it has
    exactly two columns, and a dict only when it holds non-null values
    under both 'sentence_1' and 'sentence_2', whatever other keys it
    has; every other frame or dict is answered with a [ValueError], and
    an input that is neither with a [TypeError], before the model is
    invoked: the call log of a rejected input is empty, and a call log
    that is not empty means the input passed validation.  A dict that
    passes reaches the model with the value under 'sentence_1'. *)
Theorem predict_validates_shape
    W (d : Delegates W) w context mi params self :
  let out := run d (predict context mi params self) w in
  (¬ passes_validation mi →
     out = ([], w, (Raised (rejection mi), self)) ∧
     exc_class (rejection mi)
     = match mi with InOther _ => TypeError | _ => ValueError end) ∧
  (calls_of out ≠ [] → passes_validation mi) ∧
  (∀ dict m, mi = InDict dict → passes_validation mi →
     model self = Some m →
     calls_of out !! 0%nat = Some (EncodeCall m (dict_get dict "sentence_1"))).
Proof.
  cbn zeta. split; [|split].
  - intros Hno. rewrite predict_rejected by done. split; [done|].
    by destruct mi.
  - intros Hcalls. destruct (passes_validation_dec mi) as [|Hno]; [done|].
    rewrite predict_rejected in Hcalls by done. done.
  - intros dict m -> [H1 H2] Hm. destruct self as [mo]. cbn in Hm. subst mo.
    rewrite (predict_designated _ _ _ m
               (dict_get dict "sentence_1") (dict_get dict "sentence_2")).
    + rewrite run_scoring_chain.
      destruct (d_encode d m _ w) as [[e1|ex] w1]; [|done].
      destruct (d_encode d m _ w1) as [[e2|ex] w2]; [|done].
      by destruct (d_cos_sim d e1 e2 w2) as [[t|ex] w3].
    + unfold dict_get in *.
      destruct (dict !! "sentence_1") as [a|] eqn:Ea; [|done].
      destruct (dict !! "sentence_2") as [b|] eqn:Eb; [|done].
      by apply designated_dict.
Qed.

Lemma predict_validates_shape_witness :
  (¬ passes_validation (InDataFrame wide_frame) ∧
   run stub_library
     (predict sbert_context (InDataFrame wide_frame) VNone loaded_adapter)
     0%nat
   = ([], 0%nat, (Raised two_columns_error, loaded_adapter))) ∧
  (passes_validation (InDict annotated_dict) ∧
   calls_of (run stub_library
               (predict sbert_context (InDict annotated_dict) VNone
                  loaded_adapter) 0%nat) !! 0%nat
   = Some (EncodeCall (mkST 0 "/tmp/sbert_model") (VStr "I like apples"))).
Proof.
  assert (H1 : ¬ passes_validation (InDataFrame wide_frame))
    by (cbv [passes_validation]; vm_compute; lia).
  assert (H2 : passes_validation (InDict annotated_dict))
    by (split; vm_compute; discriminate).
  split; (split; [done|]).
  - exact (proj1 (proj1 (predict_validates_shape nat stub_library 0%nat
                           sbert_context (InDataFrame wide_frame) VNone
                           loaded_adapter) H1)).
  - exact (proj2 (proj2 (predict_validates_shape nat stub_library 0%nat
                           sbert_context (InDict annotated_dict) VNone
                           loaded_adapter))
             annotated_dict (mkST 0 "/tmp/sbert_model") eq_refl H2 eq_refl).
Defined.

(** C5 as stated fails on a dict of three keys: it is not a two-key
    mapping, and [predict] accepts it and scores its two sentences. *)
Lemma predict_accepts_three_key_dict :
  size annotated_dict = 3%nat ∧
  run stub_library
    (predict sbert_context (InDict annotated_dict) VNone loaded_adapter)
    0%nat
  = ([EncodeCall (mkST 0 "/tmp/sbert_model") (VStr "I like apples");
      EncodeCall (mkST 0 "/tmp/sbert_model") (VStr "I like oranges");
      CosSimCall [0.5%float; 0.25%float] [0.5%float; 0.25%float]],
     0%nat, (Ok (mkNd [[0.625%float]]), loaded_adapter)).
Proof. split; reflexivity. Qed.

(** ** The first row *)

Lemma predict_frame_head context params self df1 df2 :
  shape1 df1 = 2%nat → shape1 df2 = 2%nat →
  head (df_rows df1) = head (df_rows df2) →
  predict context (InDataFrame df1) params self
  = predict context (InDataFrame df2) params self.
Proof.
  intros H1 H2 Hh. unfold predict, bind. rewrite H1, H2. cbn.
  unfold iloc.
  destruct (df_rows df1) as [|r1 t1], (df_rows df2) as [|r2 t2];
    cbn in Hh; try discriminate; [reflexivity|].
  injection Hh as ->. reflexivity.
Qed.

(** C9.  On a frame of exactly two columns the outcome of [predict], its
    calls included, is settled by the first row alone: two such frames
    that agree on it, whatever rows follow and whatever the columns are
    called, are treated alike.  A frame of two columns and no row is
    not stopped by the column count: [predict] fails on reading the
    first row, with pandas' [IndexError] and not with the validation
    error, and before any call. *)
Theorem predict_reads_first_row_only
    W (d : Delegates W) w context params self df1 df2 :
  shape1 df1 = 2%nat → shape1 df2 = 2%nat →
  (head (df_rows df1) = head (df_rows df2) →
   run d (predict context (InDataFrame df1) params self) w
   = run d (predict context (InDataFrame df2) params self) w) ∧
  (df_rows df1 = [] →
   passes_validation (InDataFrame df1) ∧
   run d (predict context (InDataFrame df1) params self) w
   = ([], w, (Raised (index_error 0 0), self)) ∧
   exc_class (index_error 0 0) = IndexError ∧
   index_error 0 0 ≠ rejection (InDataFrame df1)).
Proof.
  intros H1 H2. split.
  - intros Hh. by rewrite (predict_frame_head _ _ _ df1 df2).
  - intros Hr. split; [done|]. split; [|done].
    unfold predict, bind. rewrite H1. cbn. unfold iloc. rewrite Hr.
    reflexivity.
Qed.

Lemma predict_reads_first_row_only_witness :
  (run stub_library
     (predict sbert_context (InDataFrame similarity_data) VNone
        loaded_adapter) 0%nat
   = run stub_library
       (predict sbert_context (InDataFrame longer_frame) VNone
          loaded_adapter) 0%nat) ∧
  run stub_library
    (predict sbert_context (InDataFrame empty_frame) VNone loaded_adapter)
    0%nat
  = ([], 0%nat, (Raised (index_error 0 0), loaded_adapter)).
Proof.
  split.
  - exact (proj1 (predict_reads_first_row_only nat stub_library 0%nat
                    sbert_context VNone loaded_adapter
                    similarity_data longer_frame eq_refl eq_refl) eq_refl).
  - exact (proj1 (proj2 (proj2 (predict_reads_first_row_only nat stub_library
                    0%nat sbert_context VNone loaded_adapter
                    empty_frame empty_frame eq_refl eq_refl) eq_refl))).
Defined.

(** ** The adapter's state *)

(** C10.  [predict] assigns nothing: whatever the input, accepted or
    rejected, whatever the library answers and whether or not the model
    is loaded, the adapter is after the call what it was before, model
    handle included. *)
Theorem predict_leaves_self_unchanged
    W (d : Delegates W) w context mi params self :
  (outcome_of (run d (predict context mi params self) w)).2 = self.
Proof.
  destruct (passes_validation_dec mi) as [Hyes|Hno];
    [|by rewrite predict_rejected].
  unfold predict, bind. destruct self as [mo].
  destruct mi as [df|dict|v]; cbv [passes_validation] in Hyes; [| |done].
  - rewrite Hyes. cbn. unfold iloc.
    destruct (df_rows df) as [|[|a [|b r]] rest]; cbn; try done;
      destruct mo as [m|]; cbn; try done; by answer_calls.
  - destruct Hyes as [Ha Hb].
    rewrite (is_none_false _ Ha), (is_none_false _ Hb). cbn.
    destruct mo as [m|]; cbn; try done; by answer_calls.
Qed.

(** ** load_context *)

Lemma run_load_context {W} (d : Delegates W) w context self :
  run d (load_context context self) w =
  match artifacts context !! "model_path" with
  | None =>
      ([], w, (Raised (load_error (mkExc KeyError "'model_path'")), self))
  | Some path =>
      match d_load d path w with
      | (Ok m, w1) => ([LoadCall path], w1, (Ok tt, mkSelf (Some m)))
      | (Raised e, w1) =>
          ([LoadCall path], w1,
           (Raised (if is_Exception (exc_class e) then load_error e else e),
            self))
      end
  end.
Proof.
  unfold load_context, try_except, bind, lift, getitem.
  destruct (artifacts context !! "model_path") as [path|]; cbn; [|done].
  destruct (d_load d path w) as [[m|e] w1]; cbn; [done|].
  by destruct (is_Exception (exc_class e)).
Qed.

(** C3.  Whatever makes the load fail, a missing or incompatible
    artifact or any other [Exception] out of [SentenceTransformer.load],
    or the artifact not being recorded under 'model_path' at all,
    [load_context] catches it and raises one kind of error instead, a
    [ValueError] whose message is 'Error loading model: ' followed by
    the text of the underlying error, and leaves the adapter as it was;
    when the load answers with a model, that instance becomes the
    adapter's model handle. *)
Theorem load_context_wraps_failure
    W (d : Delegates W) w context self :
  let out := run d (load_context context self) w in
  (∀ path e w1,
     artifacts context !! "model_path" = Some path →
     d_load d path w = (Raised e, w1) →
     is_Exception (exc_class e) = true →
     out = ([LoadCall path], w1,
            (Raised (mkExc ValueError ("Error loading model: " +:+ exc_str e)),
             self))) ∧
  (artifacts context !! "model_path" = None →
     out = ([], w,
            (Raised (mkExc ValueError "Error loading model: 'model_path'"),
             self))) ∧
  (∀ path m w1,
     artifacts context !! "model_path" = Some path →
     d_load d path w = (Ok m, w1) →
     out = ([LoadCall path], w1, (Ok tt, mkSelf (Some m)))).
Proof.
  cbn zeta. rewrite run_load_context. repeat split.
  - intros path e w1 -> -> ->. reflexivity.
  - intros ->. reflexivity.
  - intros path m w1 -> ->. reflexivity.
Qed.

Lemma load_context_wraps_failure_witness :
  run broken_library (load_context sbert_context (mkSelf None)) 0%nat
  = ([LoadCall "/tmp/sbert_model"], 0%nat,
     (Raised (mkExc ValueError
                "Error loading model: Path /tmp/sbert_model not found"),
      mkSelf None)) ∧
  run stub_library (load_context (mkContext ∅) (mkSelf None)) 0%nat
  = ([], 0%nat,
     (Raised (mkExc ValueError "Error loading model: 'model_path'"),
      mkSelf None)) ∧
  run stub_library (load_context sbert_context (mkSelf None)) 0%nat
  = ([LoadCall "/tmp/sbert_model"], 1%nat,
     (Ok tt, mkSelf (Some (mkST 0 "/tmp/sbert_model")))).
Proof.
  split; [|split].
  - exact (proj1 (load_context_wraps_failure nat broken_library 0%nat
                    sbert_context (mkSelf None))
             "/tmp/sbert_model"
             (mkExc OSError "Path /tmp/sbert_model not found") 0%nat
             eq_refl eq_refl eq_refl).
  - exact (proj1 (proj2 (load_context_wraps_failure nat stub_library 0%nat
                           (mkContext ∅) (mkSelf None))) eq_refl).
  - exact (proj2 (proj2 (load_context_wraps_failure nat stub_library 0%nat
                           sbert_context (mkSelf None)))
             "/tmp/sbert_model" (mkST 0 "/tmp/sbert_model") 1%nat
             eq_refl eq_refl).
Defined.

(** X14.  What [except Exception] does not catch goes through as it
    is: when the load is cut short by an exception that is no
    [Exception], a [KeyboardInterrupt] or a [SystemExit], [load_context]
    raises that very exception, not the [ValueError], and leaves the
    adapter unchanged. *)
Lemma load_context_lets_signals_through
    W (d : Delegates W) w context self path e w1 :
  artifacts context !! "model_path" = Some path →
  d_load d path w = (Raised e, w1) →
  is_Exception (exc_class e) = false →
  run d (load_context context self) w = ([LoadCall path], w1, (Raised e, self)).
Proof. intros Hp Hl He. by rewrite run_load_context, Hp, Hl, He. Qed.

(** ** Loading twice *)

Lemma load_context_success {W} (d : Delegates W) w context self log w' self' :
  run d (load_context context self) w = (log, w', (Ok tt, self')) →
  ∃ path m,
    artifacts context !! "model_path" = Some path ∧
    d_load d path w = (Ok m, w') ∧
    log = [LoadCall path] ∧ self' = mkSelf (Some m).
Proof.
  rewrite run_load_context.
  destruct (artifacts context !! "model_path") as [path|]; [|done].
  destruct (d_load d path w) as [[m|e] w1] eqn:Hl; [|done].
  intros [= <- <- <-]. by exists path, m.
Qed.

Lemma scoring_chain_same_calls m1 m2 s1 s2 self1 self2 :
  same_calls m1 m2 same_result
    (scoring_chain m1 s1 s2 self1) (scoring_chain m2 s1 s2 self2).
Proof.
  apply same_encode. intros [e1|ex]; [|by apply same_ret].
  apply same_encode. intros [e2|ex]; [|by apply same_ret].
  apply same_cos_sim. intros [t|ex]; by apply same_ret.
Qed.

(** An adapter holding [m1] and one holding [m2] make the same calls on
    every input, each on its own instance. *)
Lemma predict_same_calls context mi params m1 m2 :
  same_calls m1 m2 same_result
    (predict context mi params (mkSelf (Some m1)))
    (predict context mi params (mkSelf (Some m2))).
Proof.
  destruct (passes_validation_dec mi) as [Hyes|Hno].
  - destruct mi as [df|dict|v]; cbv [passes_validation] in Hyes; [| |done].
    + unfold predict, bind. rewrite Hyes. cbn. unfold iloc.
      destruct (df_rows df) as [|[|a [|b r]] rest]; cbn;
        try (by apply same_ret).
      apply (scoring_chain_same_calls m1 m2 a b).
    + destruct Hyes as [Ha Hb]. unfold predict, bind.
      rewrite (is_none_false _ Ha), (is_none_false _ Hb).
      apply (scoring_chain_same_calls m1 m2).
  - rewrite !predict_rejected by done. by apply same_ret.
Qed.

(** C6.  Load the same stored reference twice, into any two adapters
    and whatever the library has been through in between.  Each load
    makes the one library call that loads the path recorded under
    'model_path', the same path both times, and leaves its adapter
    holding the instance that call returned.  The two instances,
    different objects as they may be, then serve every input with the
    same delegate calls, the same function on the same arguments at
    every step, each adapter calling on the instance it loaded, and end
    alike when the library answers alike; on an accepted input these
    calls are the embedding of the first field, the embedding of the
    second and the cosine similarity of the two embeddings. *)
Theorem reload_makes_same_delegate_calls
    W (d1 d2 : Delegates W) w1 w2 context self1 self2
    log1 log2 w1' w2' self1' self2' :
  run d1 (load_context context self1) w1 = (log1, w1', (Ok tt, self1')) →
  run d2 (load_context context self2) w2 = (log2, w2', (Ok tt, self2')) →
  ∃ path m1 m2,
    artifacts context !! "model_path" = Some path ∧
    log1 = [LoadCall path] ∧ log2 = [LoadCall path] ∧
    d_load d1 path w1 = (Ok m1, w1') ∧ d_load d2 path w2 = (Ok m2, w2') ∧
    self1' = mkSelf (Some m1) ∧ self2' = mkSelf (Some m2) ∧
    (∀ ctx mi params,
       same_calls m1 m2 same_result
         (predict ctx mi params self1') (predict ctx mi params self2')) ∧
    (∀ ctx mi params s1 s2,
       designated mi s1 s2 →
       predict ctx mi params self1' = scoring_chain m1 s1 s2 self1' ∧
       predict ctx mi params self2' = scoring_chain m2 s1 s2 self2').
Proof.
  intros H1 H2.
  apply load_context_success in H1 as (p1 & m1 & Hp1 & Hl1 & -> & ->).
  apply load_context_success in H2 as (p2 & m2 & Hp2 & Hl2 & -> & ->).
  assert (p2 = p1) as -> by congruence.
  exists p1, m1, m2. repeat split; try done.
  - intros. apply predict_same_calls.
  - by apply predict_designated.
  - by apply predict_designated.
Qed.

Lemma reload_makes_same_delegate_calls_witness :
  ∃ path m1 m2,
    artifacts sbert_context !! "model_path" = Some path ∧
    [LoadCall "/tmp/sbert_model"] = [LoadCall path] ∧
    [LoadCall "/tmp/sbert_model"] = [LoadCall path] ∧
    d_load stub_library path 0%nat = (Ok m1, 1%nat) ∧
    d_load stub_library path 1%nat = (Ok m2, 2%nat) ∧
    mkSelf (Some (mkST 0 "/tmp/sbert_model")) = mkSelf (Some m1) ∧
    mkSelf (Some (mkST 1 "/tmp/sbert_model")) = mkSelf (Some m2) ∧
    (∀ ctx mi params,
       same_calls m1 m2 same_result
         (predict ctx mi params (mkSelf (Some (mkST 0 "/tmp/sbert_model"))))
         (predict ctx mi params (mkSelf (Some (mkST 1 "/tmp/sbert_model"))))) ∧
    (∀ ctx mi params s1 s2,
       designated mi s1 s2 →
       predict ctx mi params (mkSelf (Some (mkST 0 "/tmp/sbert_model")))
       = scoring_chain m1 s1 s2 (mkSelf (Some (mkST 0 "/tmp/sbert_model"))) ∧
       predict ctx mi params (mkSelf (Some (mkST 1 "/tmp/sbert_model")))
       = scoring_chain m2 s1 s2 (mkSelf (Some (mkST 1 "/tmp/sbert_model")))).
Proof.
  exact (reload_makes_same_delegate_calls nat stub_library stub_library
           0%nat 1%nat sbert_context (mkSelf None) (mkSelf None)
           [LoadCall "/tmp/sbert_model"] [LoadCall "/tmp/sbert_model"]
           1%nat 2%nat
           (mkSelf (Some (mkST 0 "/tmp/sbert_model")))
           (mkSelf (Some (mkST 1 "/tmp/sbert_model")))
           eq_refl eq_refl).
Defined.

(** ** The order of the tracking calls *)

Module NotebookFacts.
Import Notebook.

(** A script that loads by a reference before logging stops at the load:
    the name of the logged model is not bound yet. *)
Lemma exec_rejects_load_before_log :
  exec [LoadModel "loaded" pyfunc "info"; LogModel "info" pyfunc None;
        Infer "loaded"] fresh_kernel = None.
Proof. reflexivity. Qed.

Lemma logs_first_sound seen tr :
  logs_first seen tr = true →
  ∀ pre o r post, tr = pre ++ Loaded o r :: post → r ∈ seen ∨ Logged r ∈ pre.
Proof.
  revert seen. induction tr as [|e tr IH]; intros seen H pre o r post Heq.
  - by destruct pre.
  - destruct pre as [|e' pre]; cbn in Heq; injection Heq as -> ->.
    + cbn in H. apply andb_true_iff in H as [H _].
      left. by apply bool_decide_eq_true in H.
    + destruct e' as [r'|o' r'|o']; cbn in H.
      * destruct (IH _ H pre o r post eq_refl) as [Hin|Hin].
        -- apply elem_of_cons in Hin as [->|Hin]; [right; left|by left].
        -- right. by right.
      * apply andb_true_iff in H as [_ H].
        destruct (IH _ H pre o r post eq_refl) as [Hin|Hin];
          [by left|right; by right].
      * destruct (IH _ H pre o r post eq_refl) as [Hin|Hin];
          [by left|right; by right].
Qed.

Lemma loads_first_sound tr :
  loads_first tr = true → load_before_infer tr.
Proof.
  induction tr as [|e tr IH]; intros H pre o post r Heq.
  - by destruct pre.
  - destruct pre as [|e' pre]; cbn in Heq; injection Heq as -> ->.
    + cbn in H. apply andb_true_iff in H as [H _].
      apply negb_true_iff in H. intros Hin.
      apply list_elem_of_In in Hin.
      assert (existsb (loads o) post = true) as Hex.
      { apply existsb_exists. exists (Loaded o r). split; [done|].
        cbn. by apply bool_decide_eq_true. }
      congruence.
    + apply (IH) with (pre := pre); [|done].
      destruct e'; cbn in H; try done.
      by apply andb_true_iff in H as [_ H].
Qed.

Lemma log_before_load_infer tr :
  log_before_load tr → log_before_infer tr.
Proof.
  intros Hll pre o post r -> Hin.
  apply list_elem_of_split in Hin as (p1 & p2 & ->).
  rewrite <- app_assoc in Hll. cbn in Hll.
  specialize (Hll p1 o r _ eq_refl).
  apply elem_of_app. by left.
Qed.

Lemma checks_ordered tr :
  logs_first [] tr = true → loads_first tr = true → ordered tr.
Proof.
  intros H1 H2.
  assert (log_before_load tr) as Hll.
  { intros pre o r post Heq.
    destruct (logs_first_sound _ _ H1 pre o r post Heq) as [Hin|]; [|done].
    by apply elem_of_nil in Hin. }
  split; [done|]. split; [by apply loads_first_sound|].
  by apply log_before_load_infer.
Qed.

End NotebookFacts.

(** C7.  Each of the three notebooks runs through without an unbound
    name and produces the events written out below: the model is
    logged once, then loaded by the reference the logging produced,
    then the loaded instance is asked for predictions.  In each of them
    every load by a reference comes after the logging that produced the
    reference, every inference on a loaded instance comes after its
    load, no inference on a loaded model comes before the model was
    logged, the three steps all take place, and every loaded instance
    is used.  What a notebook asks of the model it has just built,
    before logging it (object 0), is not an inference on a loaded
    model. *)
Theorem notebooks_log_load_infer_in_order :
  Notebook.exec Notebook.quickstart Notebook.fresh_kernel
  = Some [Notebook.Inferred 0; Notebook.Logged 1;
          Notebook.Loaded 2 1; Notebook.Inferred 2;
          Notebook.Loaded 3 1; Notebook.Inferred 3] ∧
  Notebook.exec Notebook.semantic_similarity Notebook.fresh_kernel
  = Some [Notebook.Inferred 0; Notebook.Inferred 0; Notebook.Logged 1;
          Notebook.Loaded 2 1; Notebook.Inferred 2; Notebook.Inferred 2;
          Notebook.Inferred 2] ∧
  Notebook.exec Notebook.translation Notebook.fresh_kernel
  = Some [Notebook.Inferred 0; Notebook.Inferred 0; Notebook.Logged 1;
          Notebook.Loaded 2 1; Notebook.Loaded 3 1; Notebook.Inferred 3;
          Notebook.Inferred 2; Notebook.Inferred 2] ∧
  Forall (λ nb, ∃ tr, Notebook.exec nb Notebook.fresh_kernel = Some tr ∧
                      Notebook.ordered tr ∧
                      Notebook.exercised tr ∧
                      Notebook.loads_used tr)
         Notebook.notebooks.
Proof.
  split; [by vm_compute|]. split; [by vm_compute|]. split; [by vm_compute|].
  unfold Notebook.notebooks.
  repeat (apply Forall_cons; split); [| | |by apply Forall_nil];
    eexists;
    (split; [vm_compute; reflexivity|]);
    (split; [by apply NotebookFacts.checks_ordered|]);
    (split; [find_steps|find_uses]).
Qed.

(** * Beyond the claims *)

(** ** predict before the model is there, and when the library fails *)

(** X1.  Called on an adapter whose [load_context] has not run, with an
    input that would be accepted, [predict] raises the [AttributeError]
    of the missing [model] attribute: the input is validated and its
    fields read, but no call reaches the library. *)
Theorem predict_before_load
    W (d : Delegates W) w context mi params s1 s2 :
  designated mi s1 s2 →
  run d (predict context mi params (mkSelf None)) w
  = ([], w, (Raised no_model_error, mkSelf None)).
Proof.
  intros [df a b rest Hc Hr | dict a b Ha Hna Hb Hnb].
  - unfold predict, bind. rewrite Hc. cbn. unfold iloc. rewrite Hr.
    reflexivity.
  - unfold predict, bind, dict_get. rewrite Ha, Hb.
    rewrite (is_none_false a), (is_none_false b) by done. reflexivity.
Qed.

Lemma predict_before_load_witness :
  run stub_library
    (predict sbert_context (InDataFrame similarity_data) VNone (mkSelf None))
    0%nat
  = ([], 0%nat, (Raised no_model_error, mkSelf None)).
Proof.
  apply (predict_before_load nat stub_library 0%nat sbert_context
           (InDataFrame similarity_data) VNone
           (VStr "I like apples") (VStr "I like oranges")).
  eapply designated_frame; reflexivity.
Defined.

(** X2.  [predict] does not wrap what the library raises.  On an
    accepted input an exception out of the first embedding call comes
    out of [predict] as it is and nothing else is called; one out of the
    second comes out after those two calls, the similarity never being
    asked; one out of the similarity call comes out after the three. *)
Theorem predict_passes_library_errors
    W (d : Delegates W) w context mi params m s1 s2 :
  designated mi s1 s2 →
  let self := mkSelf (Some m) in
  let out := run d (predict context mi params self) w in
  (∀ e w1,
     d_encode d m s1 w = (Raised e, w1) →
     out = ([EncodeCall m s1], w1, (Raised e, self))) ∧
  (∀ e1 w1 e w2,
     d_encode d m s1 w = (Ok e1, w1) →
     d_encode d m s2 w1 = (Raised e, w2) →
     out = ([EncodeCall m s1; EncodeCall m s2], w2, (Raised e, self))) ∧
  (∀ e1 w1 e2 w2 e w3,
     d_encode d m s1 w = (Ok e1, w1) →
     d_encode d m s2 w1 = (Ok e2, w2) →
     d_cos_sim d e1 e2 w2 = (Raised e, w3) →
     out = ([EncodeCall m s1; EncodeCall m s2; CosSimCall e1 e2], w3,
            (Raised e, self))).
Proof.
  intros Hd. cbn zeta. rewrite (predict_designated _ _ _ _ _ _ Hd).
  rewrite run_scoring_chain. repeat split.
  - by intros e w1 ->.
  - by intros e1 w1 e w2 -> ->.
  - by intros e1 w1 e2 w2 e w3 -> -> ->.
Qed.

Lemma predict_passes_library_errors_witness :
  let m := mkST 0 "/tmp/sbert_model" in
  let a := VStr "I like apples" in
  let b := VStr "I like oranges" in
  let v := [0.5%float; 0.25%float] in
  let go (k : nat) :=
    run (flaky_library k)
      (predict sbert_context (InDict similarity_dict) VNone loaded_adapter)
      0%nat in
  go 0%nat = ([EncodeCall m a], 1%nat, (Raised out_of_memory, loaded_adapter)) ∧
  go 1%nat = ([EncodeCall m a; EncodeCall m b], 2%nat,
              (Raised out_of_memory, loaded_adapter)) ∧
  go 2%nat = ([EncodeCall m a; EncodeCall m b; CosSimCall v v], 3%nat,
              (Raised out_of_memory, loaded_adapter)).
Proof.
  assert (H : designated (InDict similarity_dict)
                (VStr "I like apples") (VStr "I like oranges"))
    by (apply designated_dict; done).
  cbn zeta. split; [|split].
  - exact (proj1 (predict_passes_library_errors nat (flaky_library 0) 0%nat
                    sbert_context _ VNone (mkST 0 "/tmp/sbert_model") _ _ H)
             out_of_memory 1%nat eq_refl).
  - exact (proj1 (proj2 (predict_passes_library_errors nat (flaky_library 1)
                    0%nat sbert_context _ VNone (mkST 0 "/tmp/sbert_model")
                    _ _ H))
             [0.5%float; 0.25%float] 1%nat out_of_memory 2%nat
             eq_refl eq_refl).
  - exact (proj2 (proj2 (predict_passes_library_errors nat (flaky_library 2)
                    0%nat sbert_context _ VNone (mkST 0 "/tmp/sbert_model")
                    _ _ H))
             [0.5%float; 0.25%float] 1%nat [0.5%float; 0.25%float] 2%nat
             out_of_memory 3%nat eq_refl eq_refl eq_refl).
Defined.

(** X3.  Whatever it is given and whatever state the adapter is in,
    [predict] makes at most three library calls, none of them a load,
    and every embedding call goes to the adapter's own model. *)
Theorem predict_call_budget
    W (d : Delegates W) w context mi params self :
  let log := calls_of (run d (predict context mi params self) w) in
  (length log ≤ 3)%nat ∧
  Forall model_call log ∧
  ∀ m, model self = Some m → Forall (through m) log.
Proof.
  cbn zeta.
  destruct (passes_validation_dec mi) as [Hyes|Hno].
  2: { rewrite predict_rejected by done. cbn. repeat split; [lia|done..]. }
  unfold predict, bind. destruct self as [mo].
  destruct mi as [df|dict|v]; cbv [passes_validation] in Hyes; [| |done].
  - rewrite Hyes. cbn. unfold iloc.
    destruct (df_rows df) as [|[|a [|b r]] rest]; cbn;
      try (repeat split; [lia|done..]);
      destruct mo as [m|]; cbn; try (repeat split; [lia|done..]);
      answer_calls; (split; [lia|]); (split; [by repeat constructor|]);
      intros ? [= <-]; by repeat constructor.
  - destruct Hyes as [Ha Hb].
    rewrite (is_none_false _ Ha), (is_none_false _ Hb). cbn.
    destruct mo as [m|]; cbn; try (repeat split; [lia|done..]);
      answer_calls; (split; [lia|]); (split; [by repeat constructor|]);
      intros ? [= <-]; by repeat constructor.
Qed.

(** ** The two input forms side by side *)

Lemma predict_frame_fields context params self df a b rest :
  shape1 df = 2%nat → df_rows df = [a; b] :: rest →
  predict context (InDataFrame df) params self
  = bind (ret (a, b)) (λ fields,
      let '(sentence_1, sentence_2) := fields in
      bind getattr_model (λ m1, bind (encode m1 sentence_1) (λ embedding_1,
      bind getattr_model (λ m2, bind (encode m2 sentence_2) (λ embedding_2,
      bind (cos_sim embedding_1 embedding_2) (λ t,
      ret (np_array (tolist t)))))))) self.
Proof.
  intros Hc Hr. unfold predict, bind. rewrite Hc. cbn. unfold iloc.
  rewrite Hr. reflexivity.
Qed.

(** X4.  A frame and a dict that carry the same two non-null sentences
    are served alike: a two-column frame whose first row is [a, b] and
    a dict holding [a] under 'sentence_1' and [b] under 'sentence_2'
    give the same calls and the same outcome, in every state of the
    adapter and against every library. *)
Theorem predict_frame_dict_agree
    W (d : Delegates W) w context params self df (dict : gmap string PyVal)
    a b rest :
  shape1 df = 2%nat → df_rows df = [a; b] :: rest →
  dict !! "sentence_1" = Some a → dict !! "sentence_2" = Some b →
  a ≠ VNone → b ≠ VNone →
  run d (predict context (InDataFrame df) params self) w
  = run d (predict context (InDict dict) params self) w.
Proof.
  intros Hc Hr Ha Hb Hna Hnb. f_equal.
  rewrite (predict_frame_fields _ _ _ _ a b rest Hc Hr).
  unfold predict, bind, dict_get. rewrite Ha, Hb.
  by rewrite (is_none_false a), (is_none_false b).
Qed.

Lemma predict_frame_dict_agree_witness :
  run stub_library
    (predict sbert_context (InDataFrame longer_frame) VNone loaded_adapter)
    0%nat
  = run stub_library
      (predict sbert_context (InDict annotated_dict) VNone loaded_adapter)
      0%nat.
Proof.
  apply (predict_frame_dict_agree nat stub_library 0%nat sbert_context VNone
           loaded_adapter longer_frame annotated_dict
           (VStr "I like apples") (VStr "I like oranges")
           [[VStr "I prefer cookies."; VNone]]); done.
Defined.

(** X5.  The null check is the dict's alone.  When one of the two values
    is [None], the dict is rejected with the [ValueError] before any
    call, while the two-column frame with the same first row is let
    through and its first cell, [None] or not, goes to the embedding
    call as it is. *)
Theorem predict_null_checked_in_dict_only
    W (d : Delegates W) w context params m df (dict : gmap string PyVal)
    a b rest :
  shape1 df = 2%nat → df_rows df = [a; b] :: rest →
  dict !! "sentence_1" = Some a → dict !! "sentence_2" = Some b →
  a = VNone ∨ b = VNone →
  let self := mkSelf (Some m) in
  run d (predict context (InDict dict) params self) w
  = ([], w, (Raised both_keys_error, self)) ∧
  calls_of (run d (predict context (InDataFrame df) params self) w) !! 0%nat
  = Some (EncodeCall m a).
Proof.
  intros Hc Hr Ha Hb Hnull. cbn zeta. split.
  - rewrite predict_rejected; [done|].
    cbv [passes_validation]. unfold dict_get. rewrite Ha, Hb.
    intros [? ?]. by destruct Hnull.
  - rewrite (predict_designated _ _ _ m a b)
      by (by eapply designated_frame).
    rewrite run_scoring_chain.
    destruct (d_encode d m a w) as [[e1|ex] w1]; [|done].
    destruct (d_encode d m b w1) as [[e2|ex] w2]; [|done].
    by destruct (d_cos_sim d e1 e2 w2) as [[t|ex] w3].
Qed.

Lemma predict_null_checked_in_dict_only_witness :
  run stub_library
    (predict sbert_context (InDict null_dict) VNone loaded_adapter) 0%nat
  = ([], 0%nat, (Raised both_keys_error, loaded_adapter)) ∧
  calls_of (run stub_library
              (predict sbert_context (InDataFrame null_frame) VNone
                 loaded_adapter) 0%nat) !! 0%nat
  = Some (EncodeCall (mkST 0 "/tmp/sbert_model") VNone).
Proof.
  apply (predict_null_checked_in_dict_only nat stub_library 0%nat
           sbert_context VNone (mkST 0 "/tmp/sbert_model")
           null_frame null_dict VNone (VStr "I like oranges") []);
    try done. by left.
Defined.

(** X6.  Of a dict only the values under 'sentence_1' and 'sentence_2'
    count: two dicts that agree on these two keys, whatever else they
    hold, give the same calls and the same outcome. *)
Theorem predict_reads_two_keys_only
    W (d : Delegates W) w context params self (d1 d2 : gmap string PyVal) :
  d1 !! "sentence_1" = d2 !! "sentence_1" →
  d1 !! "sentence_2" = d2 !! "sentence_2" →
  run d (predict context (InDict d1) params self) w
  = run d (predict context (InDict d2) params self) w.
Proof.
  intros H1 H2. f_equal. unfold predict, bind, dict_get.
  by rewrite H1, H2.
Qed.

Lemma predict_reads_two_keys_only_witness :
  run stub_library
    (predict sbert_context (InDict similarity_dict) VNone loaded_adapter)
    0%nat
  = run stub_library
      (predict sbert_context (InDict annotated_dict) VNone loaded_adapter)
      0%nat.
Proof.
  apply (predict_reads_two_keys_only nat stub_library 0%nat sbert_context
           VNone loaded_adapter similarity_dict annotated_dict); reflexivity.
Defined.

(** ** load_context and predict together *)

(** X7.  Once [load_context] has succeeded, on a fresh adapter or on one
    that held another model, [predict] works with the instance that
    load returned: on an accepted input its first call is the embedding
    of the first field by that instance, and every call it makes goes
    to that instance. *)
Theorem predict_uses_loaded_instance
    W (d : Delegates W) w context self path m w1 ctx mi params s1 s2 :
  artifacts context !! "model_path" = Some path →
  d_load d path w = (Ok m, w1) →
  designated mi s1 s2 →
  ∃ self',
    run d (load_context context self) w
    = ([LoadCall path], w1, (Ok tt, self')) ∧
    ∀ w2,
      let log := calls_of (run d (predict ctx mi params self') w2) in
      log !! 0%nat = Some (EncodeCall m s1) ∧ Forall (through m) log.
Proof.
  intros Hp Hl Hd. exists (mkSelf (Some m)). split.
  - by rewrite run_load_context, Hp, Hl.
  - intros w2. cbn zeta. rewrite (predict_designated _ _ _ _ _ _ Hd).
    rewrite run_scoring_chain.
    destruct (d_encode d m s1 w2) as [[e1|ex] w3];
      [|by split; repeat constructor].
    destruct (d_encode d m s2 w3) as [[e2|ex] w4];
      [|by split; repeat constructor].
    destruct (d_cos_sim d e1 e2 w4) as [[t|ex] w5];
      by split; repeat constructor.
Qed.

Lemma predict_uses_loaded_instance_witness :
  ∃ self',
    run stub_library (load_context sbert_context loaded_adapter) 7%nat
    = ([LoadCall "/tmp/sbert_model"], 8%nat, (Ok tt, self')) ∧
    ∀ w2,
      let log := calls_of (run stub_library
                   (predict sbert_context (InDataFrame similarity_data) VNone
                      self') w2) in
      log !! 0%nat
      = Some (EncodeCall (mkST 7 "/tmp/sbert_model") (VStr "I like apples")) ∧
      Forall (through (mkST 7 "/tmp/sbert_model")) log.
Proof.
  apply (predict_uses_loaded_instance nat stub_library 7%nat sbert_context
           loaded_adapter "/tmp/sbert_model" (mkST 7 "/tmp/sbert_model")
           8%nat sbert_context (InDataFrame similarity_data) VNone
           (VStr "I like apples") (VStr "I like oranges")).
  - reflexivity.
  - reflexivity.
  - eapply designated_frame; reflexivity.
Defined.

(** X8.  [load_context] is all or nothing and asks the library at most
    once: when it raises, whatever it raises, the adapter is as it was,
    a model loaded earlier included; when it returns, it has made the
    one call that loads the path recorded under 'model_path' and the
    adapter holds the instance that call returned. *)
Theorem load_context_all_or_nothing
    W (d : Delegates W) w context self :
  let out := run d (load_context context self) w in
  (length (calls_of out) ≤ 1)%nat ∧
  match (outcome_of out).1 with
  | Raised _ => (outcome_of out).2 = self
  | Ok _ =>
      ∃ path m w1,
        artifacts context !! "model_path" = Some path ∧
        d_load d path w = (Ok m, w1) ∧
        calls_of out = [LoadCall path] ∧
        (outcome_of out).2 = mkSelf (Some m)
  end.
Proof.
  cbn zeta. rewrite run_load_context.
  destruct (artifacts context !! "model_path") as [path|]; cbn;
    [|split; [lia|done]].
  destruct (d_load d path w) as [[m|e] w1] eqn:Hl; cbn;
    [|split; [lia|done]].
  split; [lia|]. by exists path, m, w1.
Qed.

Lemma load_context_lets_signals_through_witness :
  run interrupted_library (load_context sbert_context loaded_adapter) 0%nat
  = ([LoadCall "/tmp/sbert_model"], 0%nat,
     (Raised (mkExc KeyboardInterrupt ""), loaded_adapter)).
Proof.
  apply (load_context_lets_signals_through nat interrupted_library 0%nat
           sbert_context loaded_adapter "/tmp/sbert_model"
           (mkExc KeyboardInterrupt "") 0%nat); reflexivity.
Defined.

(** ** Cleaning the decoded translation *)

Lemma string_app_cons c (a b : string) :
  String c a +:+ b = String c (a +:+ b).
Proof. reflexivity. Qed.

Lemma string_length_app (a b : string) :
  String.length (a +:+ b) = (String.length a + String.length b)%nat.
Proof.
  induction a as [|c a IH]; [done|].
  rewrite string_app_cons. cbn [String.length]. by rewrite IH.
Qed.

Lemma string_app_empty (s : string) : s +:+ "" = s.
Proof.
  induction s as [|c s IH]; [done|]. by rewrite string_app_cons, IH.
Qed.

Lemma starts_with_length old s :
  starts_with old s = true → (String.length old ≤ String.length s)%nat.
Proof.
  revert s. induction old as [|a old IH]; intros [|c s];
    cbn [starts_with String.length]; intros H; try lia; try done.
  apply andb_true_iff in H as [_ H]. apply IH in H. lia.
Qed.

(** A replacement that is no longer than the pattern does not lengthen
    the string; [skip] characters are dropped on top. *)
Lemma replace_from_length old new skip s :
  (String.length new ≤ String.length old)%nat →
  (String.length (replace_from old new skip s)
   + skip `min` String.length s ≤ String.length s)%nat.
Proof.
  intros Hlen. revert skip.
  induction s as [|c s IH]; intros skip; cbn [replace_from String.length].
  - lia.
  - destruct skip as [|k].
    + destruct (starts_with old (String c s)) eqn:Hsw.
      * apply starts_with_length in Hsw. cbn [String.length] in Hsw.
        rewrite string_length_app.
        specialize (IH (String.length old - 1)%nat). lia.
      * cbn [String.length]. specialize (IH 0%nat). lia.
    + specialize (IH k). lia.
Qed.

Lemma str_replace_length a old new s :
  (String.length new ≤ S (String.length old))%nat →
  (String.length (str_replace (String a old) new s) ≤ String.length s)%nat.
Proof.
  intros Hlen. unfold str_replace.
  pose proof (replace_from_length (String a old) new 0 s Hlen). lia.
Qed.

(** Where the first character of the pattern does not occur nothing is
    replaced. *)
Lemma replace_from_passes a old new body rest :
  occurs a body = false →
  replace_from (String a old) new 0 (body +:+ rest)
  = body +:+ replace_from (String a old) new 0 rest.
Proof.
  induction body as [|c body IH]; cbn [occurs]; [done|].
  intros [Hc Hb]%orb_false_iff.
  rewrite string_app_cons.
  cbn [replace_from starts_with]. rewrite Hc. cbn [andb].
  by rewrite IH.
Qed.

(** X9.  A decoded text of the form '<pad> ' + body + '</s>', where the
    body has no '<' in it, is printed as a line break followed by the
    body: both markers are gone and the body is left as it was. *)
Theorem printed_result_strips_markers (body : string) :
  occurs "<" body = false →
  printed_result ("<pad> " +:+ body +:+ "</s>") = newline +:+ body.
Proof.
  intros Hb. unfold printed_result.
  assert (str_replace "<pad> " newline ("<pad> " +:+ body +:+ "</s>")
          = newline +:+ body +:+ "</s>") as ->.
  { unfold str_replace.
    change ("<pad> " +:+ body +:+ "</s>")
      with (String "<" (String "p" (String "a" (String "d"
             (String ">" (String " " (body +:+ "</s>"))))))).
    cbn [replace_from starts_with Ascii.eqb Bool.eqb andb String.length
         Nat.sub].
    by rewrite replace_from_passes. }
  unfold str_replace.
  change (newline +:+ body +:+ "</s>")
    with (String "010" (body +:+ "</s>")).
  cbn [replace_from starts_with Ascii.eqb Bool.eqb andb].
  rewrite replace_from_passes by done.
  cbn. by rewrite string_app_empty.
Qed.

Lemma printed_result_strips_markers_witness :
  printed_result decoded_example
  = newline +:+ "La liberte, l'egalite, la fraternite ou la mort.".
Proof.
  apply (printed_result_strips_markers
           "La liberte, l'egalite, la fraternite ou la mort.").
  reflexivity.
Defined.

(** X10.  A text without any '<' is printed unchanged. *)
Theorem printed_result_keeps_plain_text (result : string) :
  occurs "<" result = false → printed_result result = result.
Proof.
  intros H. unfold printed_result, str_replace.
  rewrite <- (string_app_empty result) at 1.
  rewrite replace_from_passes by done. cbn [replace_from].
  rewrite string_app_empty.
  rewrite <- (string_app_empty result) at 1.
  rewrite replace_from_passes by done. cbn [replace_from].
  apply string_app_empty.
Qed.

Lemma printed_result_keeps_plain_text_witness :
  printed_result "J'ai entendu que Nice est bien."
  = "J'ai entendu que Nice est bien.".
Proof.
  apply (printed_result_keeps_plain_text "J'ai entendu que Nice est bien.").
  reflexivity.
Defined.

(** X11.  Cleaning only ever removes: what is printed is never longer
    than the decoded text. *)
Theorem printed_result_not_longer (result : string) :
  (String.length (printed_result result) ≤ String.length result)%nat.
Proof.
  unfold printed_result.
  etrans; [apply str_replace_length; cbn; lia|].
  apply str_replace_length. cbn. lia.
Qed.

(** ** Reporting the sizes of the embeddings *)

Lemma size_loop_in_range (pre suf : list Embedding) :
  ∃ lines,
    size_loop (pre ++ suf) (enumerate_from (length pre) suf) = (lines, None) ∧
    length lines = length suf ∧
    ∀ k row, suf !! k = Some row →
      lines !! k
      = Some ("The size of embedding " +:+ pretty (length pre + k + 1)%nat
              +:+ " is: " +:+ pretty (length row)).
Proof.
  revert pre. induction suf as [|x suf IH]; intros pre.
  - exists []. by repeat split.
  - destruct (IH (pre ++ [x])) as (lines & Hrun & Hlen & Hk).
    rewrite <- app_assoc, length_app in Hrun. cbn in Hrun.
    rewrite Nat.add_1_r in Hrun.
    cbn [enumerate_from size_loop]. unfold getitem_row.
    rewrite list_lookup_middle by done. rewrite Hrun.
    eexists. split; [reflexivity|]. split; [cbn; by rewrite Hlen|].
    intros [|k] row Hrow; cbn in Hrow.
    + injection Hrow as ->. cbn. by rewrite Nat.add_0_r.
    + change ((?l :: lines) !! S k) with (lines !! k).
      rewrite (Hk k row Hrow), length_app. cbn [length].
      by replace (length pre + 1 + k + 1)%nat with (length pre + S k + 1)%nat
        by lia.
Qed.

(** X12.  The size report never fails on an index: for any array of
    embeddings, an empty one included, the loop runs to its end; after
    the line with the number of embeddings it prints one line per
    embedding, and the line for the embedding at position [k] carries
    the number [k + 1] and the length of that embedding. *)
Theorem size_report_in_range (embeddings_test : list Embedding) :
  ∃ lines,
    size_report embeddings_test
    = (("The return structure length is: "
        +:+ pretty (length embeddings_test)) :: lines, None) ∧
    length lines = length embeddings_test ∧
    ∀ k row, embeddings_test !! k = Some row →
      lines !! k
      = Some ("The size of embedding " +:+ pretty (k + 1)%nat
              +:+ " is: " +:+ pretty (length row)).
Proof.
  destruct (size_loop_in_range [] embeddings_test) as (lines & Hrun & Hlen & Hk).
  exists lines. unfold size_report, enumerate.
  cbn in Hrun. rewrite Hrun. by repeat split.
Qed.
